(** * MOPIc backend: test-session orchestration and proficiency scoring

    A shallow embedding of [Backend/test_router.py] and
    [Backend/database/repository.py], and the properties of the daily
    three-question session that hold (or fail) on that code.

    Conventions of the embedding:
    - a Python exception is a value of [exn]; a handler is a function of
      the database that returns its outcome and the database it leaves
      behind (state passing, [M]);
    - a Python [dict] looked up by key is a [gmap]; a [dict] that is
      iterated ([class_mapping.items()]) is an association list in
      insertion order;
    - a SQL table is the list of its rows in insertion order;
      [session.scalar(select ...)] is the first row that satisfies the
      [where] clause, or [None];
    - Python floats are exact rationals ([Q]); NaN is a cell of its own;
    - the collaborators (clock, transcoding, inference service, CatBoost
      model file) are the fields of an environment record [Env]. *)

From Stdlib Require Import ZArith QArith Qround Ascii String List Permutation Lia.
From stdpp Require Import base option list gmap strings.

Local Open Scope Z_scope.
Local Open Scope string_scope.
Local Open Scope list_scope.

(** ** Python values and exceptions *)

Module Py.

(** The exceptions that the two modules can raise. *)
Inductive exn : Type :=
| AttributeError (obj attr : string)
| KeyError (key : string)
| IndexError
| ValueError
| TypeError
| HTTPException (status_code : Z) (detail : string)
| CatBoostError
| RequestException.

Inductive result (A : Type) : Type :=
| Ok (a : A)
| Raise (e : exn).
Arguments Ok {A} a.
Arguments Raise {A} e.

Definition is_raise {A} (r : result A) : bool :=
  match r with Ok _ => false | Raise _ => true end.

(** The two dynamic types that meet in [q_num == 3]. *)
Inductive value : Type :=
| VStr (s : string)
| VInt (z : Z).

(** [a == b]: a string and an integer are never equal. *)
Definition equal (a b : value) : bool :=
  match a, b with
  | VStr s, VStr t => String.eqb s t
  | VInt x, VInt y => Z.eqb x y
  | _, _ => false
  end.

(** [s.split(sep)] for a one-character separator. *)
Fixpoint split (sep : ascii) (s : string) : list string :=
  match s with
  | EmptyString => [EmptyString]
  | String c s' =>
      if Ascii.eqb c sep then EmptyString :: split sep s'
      else match split sep s' with
           | [] => [String c EmptyString]
           | w :: ws => String c w :: ws
           end
  end.

(** [l[-1]] and [l[0]] on a list. *)
Definition list_last {A} (l : list A) : result A :=
  match last l with Some x => Ok x | None => Raise IndexError end.

Definition list_first {A} (l : list A) : result A :=
  match l with x :: _ => Ok x | [] => Raise IndexError end.

(** [s[-1]] on a string: a string of length one. *)
Fixpoint str_last (s : string) : result string :=
  match s with
  | EmptyString => Raise IndexError
  | String c EmptyString => Ok (String c EmptyString)
  | String _ s' => str_last s'
  end.

(** [int(s)] for a string of length one. A string is the sequence of its
    bytes: on an ASCII file name the cut of line 79 and [int] are those of
    Python; the decimal digits that Python accepts beyond ASCII are not
    modelled. *)
Definition int_of_char (s : string) : result Z :=
  match s with
  | String c EmptyString =>
      let n := Z.of_N (N_of_ascii c) in
      if ((48 <=? n)%Z && (n <=? 57)%Z)%bool then Ok (n - 48)%Z else Raise ValueError
  | _ => Raise ValueError
  end.

(** [round(x)] of Python 3: to the nearest integer, a tie to the even
    neighbour. *)
Definition round (x : Q) : Z :=
  let f := Qfloor x in
  match Qcompare (x - inject_Z f) (1 # 2) with
  | Lt => f
  | Gt => f + 1
  | Eq => if Z.even f then f else f + 1
  end.

End Py.

Import Py.

(** ** Rows, tables and the database *)

(** The ORM classes live in [database/orm.py]; the fields below are the
    attributes that the router reads and writes. A table is the list of
    its rows in insertion order, with no uniqueness constraint: neither the
    router nor the repository looks a row up before it inserts one. *)

Record Question : Type := mkQuestion {
  q_date : string;
  q1 : string;
  q2 : string;
  q3 : string
}.

(** The per-question metric bundle, the JSON object that the inference
    service answers with. [grammar] is a nested JSON object. *)
Record Output : Type := mkOutput {
  o_wpm : Q;
  o_mlr : Q;
  o_pause : Q;
  o_grammar : gmap string (gmap string Q);
  o_mpr : Q;
  o_coherence : string
}.

Record Test : Type := mkTest {
  user_id : Z;
  path : string;
  q_num : Z;
  createddate : string;
  wpm : Q;
  mlr : Q;
  pause : Q;
  grammar : gmap string (gmap string Q);
  mpr : Q;
  coherence : string
}.

Record Score : Type := mkScore {
  s_user_id : Z;
  s_date : string;
  score : string
}.

Record User : Type := mkUser {
  id : Z;
  streak : Z;
  is_done : bool
}.

Record DB : Type := mkDB {
  users : gmap Z User;
  questions : list Question;
  tests : list Test;
  scores : list Score
}.

(** Modelled from the spec: [User.addstreak] and [User.done] are methods of
    [database/orm.py]; the streak counter is incremented and the
    done-today flag is set. *)
Definition addstreak (u : User) : User :=
  {| id := id u; streak := streak u + 1; is_done := is_done u |}.

Definition done_today (u : User) : User :=
  {| id := id u; streak := streak u; is_done := true |}.

(** ** Handlers as state-passing computations that may raise *)

Definition M (A : Type) : Type := DB -> result A * DB.

Definition ret {A} (a : A) : M A := fun db => (Ok a, db).

Definition raise {A} (e : exn) : M A := fun db => (Raise e, db).

Definition bind {A B} (m : M A) (k : A -> M B) : M B :=
  fun db =>
    match m db with
    | (Ok a, db') => k a db'
    | (Raise e, db') => (Raise e, db')
    end.

Definition lift {A} (r : result A) : M A := fun db => (r, db).

Declare Scope py_scope.
Delimit Scope py_scope with py.
Notation "x <~ m ;; k" := (bind m (fun x => k))
  (at level 100, m at next level, right associativity) : py_scope.
Notation "m ;;; k" := (bind m (fun _ => k))
  (at level 100, right associativity) : py_scope.
Local Open Scope py_scope.

(** ** The collaborators *)

Record UploadFile : Type := mkUploadFile {
  filename : string;
  content : string
}.

Inductive cell : Type :=
| CNum (x : Q)
| CStr (s : string)
| CNaN.

Record DataFrame : Type := mkDataFrame {
  columns : list string;
  data : list (list cell)
}.

(** What a request sees of the outside world: the calendar day of the
    clock (read once per request), the outcome of librosa and soundfile on
    the uploaded bytes ([None] when one of them raises), the reply of the
    inference service ([None] when the request raises, times out with an
    exception, or the reply is not a metric bundle), and the CatBoost
    model file ([None] when it cannot be loaded). *)
Record Env : Type := mkEnv {
  today : string;
  transcode : UploadFile -> Z -> string -> option string;
  infer : string -> string -> option Output;
  model : option (DataFrame -> list Z)
}.

(** ** [database/repository.py] *)

Module Repository.

(** [session.add; session.commit; session.refresh] on a user that is
    already a row: the row of that id is replaced. *)
Definition create_update_user (user : User) : M User :=
  fun db =>
    (Ok user,
     {| users := <[id user := user]> (users db);
        questions := questions db;
        tests := tests db;
        scores := scores db |}).

(** A new row is appended; nothing is looked up first. *)
Definition create_test (test : Test) : M Test :=
  fun db =>
    (Ok test,
     {| users := users db;
        questions := questions db;
        tests := tests db ++ [test];
        scores := scores db |}).

Definition create_score (score : Score) : M Score :=
  fun db =>
    (Ok score,
     {| users := users db;
        questions := questions db;
        tests := tests db;
        scores := scores db ++ [score] |}).

Definition question_where (date : string) (q : Question) : bool :=
  String.eqb (q_date q) date.

Definition get_questions_by_date (date : string) : M (option Question) :=
  fun db => (Ok (List.find (question_where date) (questions db)), db).

Definition test_where (date : string) (user : User) (qn : Z) (t : Test) : bool :=
  String.eqb (createddate t) date && Z.eqb (user_id t) (id user) && Z.eqb (q_num t) qn.

Definition get_result_by_q_num (date : string) (user : User) (qn : Z) : M (option Test) :=
  fun db => (Ok (List.find (test_where date user qn) (tests db)), db).

Definition score_where (date : string) (user : User) (s : Score) : bool :=
  String.eqb (s_date s) date && Z.eqb (s_user_id s) (id user).


Definition get_personal_tests (user : User) : M (list Test) :=
  fun db => (Ok (List.filter (fun t => Z.eqb (user_id t) (id user)) (tests db)), db).

End Repository.

Import Repository.

(** ** [test_router.py] *)

(** The [except] clause calls [HTTPException(status_csode=500, ...)]; the
    misspelt keyword makes that call itself raise, so a failure of the
    transcoding leaves the function as a [TypeError]. *)
Definition save_and_process_audio (env : Env) (file : UploadFile) (uid : Z) (qn : string)
  : M string :=
  match transcode env file uid qn with
  | Some resampled_path => ret resampled_path
  | None => raise TypeError
  end.

Definition run_inference (env : Env) (path : string) (question : string) : M Output :=
  match infer env path question with
  | Some output => ret output
  | None => raise RequestException
  end.

(** [QuestionSchema.from_orm] and [TestSchema.from_orm] copy the row; the
    handlers below return the row. *)
Definition get_question_handler (env : Env) : M Question :=
  questions <~ get_questions_by_date (today env) ;;
  match questions with
  | Some q => ret q
  | None => raise (HTTPException 404 "Question Not Found")
  end.

(** [file.filename.split("_")[-1].split(".")[0][-1]] *)
Definition q_num_of_filename (name : string) : result string :=
  match list_last (split "_" name) with
  | Raise e => Raise e
  | Ok tail =>
      match list_first (split "." tail) with
      | Raise e => Raise e
      | Ok stem => str_last stem
      end
  end.

(** [getattr(question_data, f"q{q_num}", "질문을 찾을 수 없음")] *)
Definition getattr_q (question_data : Question) (qn : string) : string :=
  if String.eqb qn "1" then q1 question_data
  else if String.eqb qn "2" then q2 question_data
  else if String.eqb qn "3" then q3 question_data
  else "질문을 찾을 수 없음".

(** [Test.create] on the [CreateTestRequest] made of the unpacked inference
    output and of [user_id], [path], [q_num] and [createddate]. *)
Definition Test_create (output : Output) (uid : Z) (file_path : string) (n : Z)
    (date : string) : Test :=
  {| user_id := uid; path := file_path; q_num := n; createddate := date;
     wpm := o_wpm output; mlr := o_mlr output; pause := o_pause output;
     grammar := o_grammar output; mpr := o_mpr output;
     coherence := o_coherence output |}.

(** [q_num] is the one-character string cut from the file name; the guard
    of the completion branch compares it with the integer [3]. *)
Definition upload_test (env : Env) (file : UploadFile) (user : User) : M Test :=
  question_data <~ get_question_handler env ;;
  qn <~ lift (q_num_of_filename (filename file)) ;;
  file_path <~ save_and_process_audio env file (id user) qn ;;
  let question := getattr_q question_data qn in
  output <~ run_inference env file_path question ;;
  n <~ lift (int_of_char qn) ;;
  test <~ create_test (Test_create output (id user) file_path n (today env)) ;;
  (if Py.equal (VStr qn) (VInt 3)
   then create_update_user (done_today (addstreak user)) ;;; ret tt
   else ret tt) ;;;
  ret test.

(** One row of the frame: the six attributes in the order of [columns].
    [test] is [None] when the query found no row. *)
Definition feature_row (test : option Test) : result (list cell) :=
  match test with
  | None => Raise (AttributeError "NoneType" "wpm")
  | Some t =>
      match grammar t !! "phase_2" with
      | None => Raise (KeyError "phase_2")
      | Some phase =>
          match phase !! "score" with
          | None => Raise (KeyError "score")
          | Some g =>
              Ok [CNum (wpm t); CNum (mlr t); CNum (pause t); CNum g;
                  CNum (mpr t); CStr (coherence t)]
          end
      end
  end.

(** The body of [for q_num in range(1, 4)], over the values of the range. *)
Fixpoint collect_rows (date : string) (user : User) (range : list Z) : M (list (list cell)) :=
  match range with
  | [] => ret []
  | qn :: range' =>
      test <~ get_result_by_q_num date user qn ;;
      row <~ lift (feature_row test) ;;
      rest <~ collect_rows date user range' ;;
      ret (row :: rest)
  end.

Definition feature_columns : list string :=
  ["WPM"; "MLR"; "Pause"; "Grammar"; "PR"; "Coherence"].

Definition collect_tests_scores (date : string) (user : User) : M DataFrame :=
  data <~ collect_rows date user [1; 2; 3] ;;
  ret {| columns := feature_columns; data := data |}.

Definition coherence_mapping : gmap string Z :=
  <["낮음" := 0]> (<["중간" := 1]> (<["높음" := 2]> ∅)).

Definition class_mapping : list (string * Z) :=
  [("NH", 0); ("IL", 1); ("IM", 2); ("IH", 3); ("AL", 4)].

(** [Series.map(d)]: a value that is not a key of [d] becomes NaN. *)
Definition series_map (d : gmap string Z) (c : cell) : cell :=
  match c with
  | CStr s => match d !! s with Some z => CNum (inject_Z z) | None => CNaN end
  | _ => CNaN
  end.

(** [df[name] = df[name].map(d)] *)
Definition map_column (name : string) (f : cell -> cell) (df : DataFrame) : DataFrame :=
  {| columns := columns df;
     data := map (fun row =>
                    zip_with (fun c v => if String.eqb c name then f v else v)
                             (columns df) row)
                 (data df) |}.

(** [predictions.mean()]; [None] is the NaN of an empty array. The mean
    is the exact quotient; numpy computes it in float64, which for class
    indices of ordinary size differs from the exact quotient by far less
    than the distance of a mean of three integers to the nearest tie. *)
Definition mean (predictions : list Z) : option Q :=
  match predictions with
  | [] => None
  | _ => Some (Qmake (fold_right Z.add 0 predictions) (Pos.of_nat (length predictions)))
  end.

(** [int(round(predictions.mean()))] *)
Definition average (predictions : list Z) : result Z :=
  match mean predictions with
  | Some m => Ok (Py.round m)
  | None => Raise ValueError
  end.

(** [[key for key, value in class_mapping.items() if value == average_predictions]] *)
Definition keys_of_value (average_predictions : Z) : list string :=
  map fst (List.filter (fun kv => Z.eqb (snd kv) average_predictions) class_mapping).

Definition load_model (env : Env) : M (DataFrame -> list Z) :=
  match model env with
  | Some predict => ret predict
  | None => raise CatBoostError
  end.

Definition Score_create (uid : Z) (date : string) (label : string) : Score :=
  {| s_user_id := uid; s_date := date; score := label |}.

Definition get_score_handler (env : Env) (user : User) : M Score :=
  let date := today env in
  user_scores <~ collect_tests_scores date user ;;
  let user_scores := map_column "Coherence" (series_map coherence_mapping) user_scores in
  predict <~ load_model env ;;
  let predictions := predict user_scores in
  average_predictions <~ lift (average predictions) ;;
  predicted_class <~ lift (list_first (keys_of_value average_predictions)) ;;
  create_score (Score_create (id user) date predicted_class).

(** ** The session of a user on a date *)

Definition session_where (date : string) (user : User) (t : Test) : bool :=
  String.eqb (createddate t) date && Z.eqb (user_id t) (id user).

(** The persisted TestResults of (user, date), in insertion order. *)
Definition session_tests (date : string) (user : User) (db : DB) : list Test :=
  List.filter (session_where date user) (tests db).

Definition has_grammar_score (t : Test) (g : Q) : Prop :=
  exists phase, grammar t !! "phase_2" = Some phase /\ phase !! "score" = Some g.

Definition add_test (t : Test) (db : DB) : DB :=
  {| users := users db; questions := questions db;
     tests := tests db ++ [t]; scores := scores db |}.

Definition add_score (s : Score) (db : DB) : DB :=
  {| users := users db; questions := questions db;
     tests := tests db; scores := scores db ++ [s] |}.

(** Lines 146 to 149 of the scoring request on their own: the label of
    the rounded mean of the predictions. *)
Definition predicted_class (predictions : list Z) : result string :=
  match average predictions with
  | Raise e => Raise e
  | Ok average_predictions => list_first (keys_of_value average_predictions)
  end.

(** The frame after [user_scores["Coherence"].map(coherence_mapping)]. *)
Definition mapped (df : DataFrame) : DataFrame :=
  map_column "Coherence" (series_map coherence_mapping) df.

(** The row of the frame for the TestResult [t] whose grammar score is [g],
    before and after the mapping of the Coherence column. *)
Definition feature_cells (t : Test) (g : Q) : list cell :=
  [CNum (wpm t); CNum (mlr t); CNum (pause t); CNum g; CNum (mpr t); CStr (coherence t)].

Definition mapped_cells (t : Test) (g : Q) : list cell :=
  [CNum (wpm t); CNum (mlr t); CNum (pause t); CNum g; CNum (mpr t);
   series_map coherence_mapping (CStr (coherence t))].

(** ** The words of the specification on the session label

    Nearest integer with ties away from zero, and the class-label table
    read from index to label. *)

Definition spec_round_half_away (x : Q) : Z :=
  if Qle_bool 0 x then Qfloor (x + (1 # 2)) else Qceiling (x - (1 # 2)).

Definition spec_class_labels : gmap Z string :=
  <[0 := "NH"]> (<[1 := "IL"]> (<[2 := "IM"]> (<[3 := "IH"]> (<[4 := "AL"]> ∅)))).

(** The mean as the specification has it: the sum of the class indices
    over their number. *)
Fixpoint spec_sum (indices : list Z) : Z :=
  match indices with
  | [] => 0
  | i :: rest => i + spec_sum rest
  end.

Definition spec_mean (indices : list Z) : Q :=
  inject_Z (spec_sum indices) / inject_Z (Z.of_nat (length indices)).

Definition spec_session_label (indices : list Z) : option string :=
  spec_class_labels !! spec_round_half_away (spec_mean indices).

(** ** A concrete day

    The day of the end-to-end scenario: the Question of 2024-01-01 has the
    prompts P1, P2 and P3; one user; transcoding and inference succeed. *)

Definition ex_date : string := "2024-01-01".

Definition ex_question : Question := mkQuestion ex_date "P1" "P2" "P3".

Definition ex_user : User := mkUser 7 0 false.

Definition ex_grammar : gmap string (gmap string Q) :=
  {["phase_2" := {["score" := 3 # 1]}]}.

Definition ex_output (coh : string) : Output :=
  mkOutput (120 # 1) (5 # 1) (1 # 10) ex_grammar (7 # 10) coh.

(** The model file loads and the classifier answers [predictions]. *)
Definition ex_env (coh : string) (predictions : list Z) : Env :=
  {| today := ex_date;
     transcode := fun file uid qn => Some (String.append "./uploads/7/" (filename file));
     infer := fun path question => Some (ex_output coh);
     model := Some (fun df => predictions) |}.

(** The same day with a transcoding that raises. *)
Definition ex_env_no_audio : Env :=
  {| today := ex_date;
     transcode := fun file uid qn => None;
     infer := fun path question => Some (ex_output "중간");
     model := Some (fun df => [1; 1; 2]) |}.

Definition ex_file (n : string) : UploadFile :=
  {| filename := String.append "answer_" (String.append n ".wav"); content := "" |}.

Definition ex_db : DB :=
  {| users := {[7 := ex_user]}; questions := [ex_question]; tests := []; scores := [] |}.

(** The database after the user has submitted the files of [ns] in turn. *)
Fixpoint ex_submit (env : Env) (ns : list string) (db : DB) : DB :=
  match ns with
  | [] => db
  | n :: ns' => ex_submit env ns' (snd (upload_test env (ex_file n) ex_user db))
  end.

(** The classifier answers the class indices 1, 1, 2. *)
Definition ex_env_112 : Env := ex_env "중간" [1; 1; 2].

(** The row that the submission of question [n] persists. *)
Definition ex_test_of (coh : string) (n : Z) : Test :=
  Test_create (ex_output coh) 7
    (String.append "./uploads/7/answer_"
       (String.append (String (ascii_of_N (Z.to_N (48 + n))) EmptyString) ".wav"))
    n ex_date.

Definition ex_test (n : Z) : Test := ex_test_of "중간" n.

Definition ex_db_1 : DB := ex_submit ex_env_112 ["1"] ex_db.
Definition ex_db_31 : DB := ex_submit ex_env_112 ["3"; "1"] ex_db.
Definition ex_db_312 : DB := ex_submit ex_env_112 ["3"; "1"; "2"] ex_db.
Definition ex_db_123 : DB := ex_submit ex_env_112 ["1"; "2"; "3"] ex_db.

(** Question 1 submitted twice, then question 2. *)
Definition ex_db_112 : DB := ex_submit ex_env_112 ["1"; "1"; "2"] ex_db.

(** A day on which the inference service answers a coherence token that is
    not a key of [coherence_mapping]. *)
Definition ex_env_unmapped : Env := ex_env "보통" [1; 1; 2].
Definition ex_db_unmapped : DB := ex_submit ex_env_unmapped ["1"; "2"; "3"] ex_db.

(** A classifier that answers a class index outside the table. *)
Definition ex_env_777 : Env := ex_env "중간" [7; 7; 7].

Definition ex_score : Score := mkScore 7 ex_date "IL".

(** ** The path of the resampled file

    Lines 30 to 32 of [save_and_process_audio]: the name is
    [f"{uuid.uuid4()}_{q_num}.wav"] and [os.path.join] puts it behind the
    upload directory of the user, which ends with a slash. [uuid] is the
    text of the UUID and [uid] the text of the user id. *)
Definition resampled_path (uuid uid qn : string) : string :=
  String.append "./uploads/"
    (String.append uid
       (String.append "/"
          (String.append uuid (String.append "_" (String.append qn ".wav"))))).

(** [c in s] for a character. *)
Fixpoint has_char (c : ascii) (s : string) : bool :=
  match s with
  | EmptyString => false
  | String d s' => Ascii.eqb d c || has_char c s'
  end.



(** ** Further concrete inputs *)

(** A day without a published Question. *)
Definition ex_db_unpublished : DB :=
  {| users := {[7 := ex_user]}; questions := []; tests := []; scores := [] |}.

(** A second user, and a row of theirs. *)
Definition ex_other : User := mkUser 8 2 true.

Definition ex_other_test : Test :=
  Test_create (ex_output "높음") 8 "./uploads/8/answer_1.wav" 1 ex_date.

(** The database after a series of submissions, each with the world it
    saw, its file and its user. *)
Fixpoint uploads (requests : list (Env * UploadFile * User)) (db : DB) : DB :=
  match requests with
  | [] => db
  | (env, file, user) :: requests' =>
      uploads requests' (snd (upload_test env file user db))
  end.

(** A cell that a classifier can take: a number or NaN. *)
Definition numeric (c : cell) : Prop := c = CNaN \/ exists x, c = CNum x.

(** The frame of the complete session of the concrete day. *)
Definition ex_frame : DataFrame :=
  {| columns := feature_columns;
     data := [feature_cells (ex_test 1) (3 # 1); feature_cells (ex_test 2) (3 # 1);
              feature_cells (ex_test 3) (3 # 1)] |}.

(** Every character of the string is ASCII. *)
Definition is_ascii (s : string) : bool :=
  forallb (fun c => N.ltb (N_of_ascii c) 128) (list_ascii_of_string s).
(** * Properties *)

Example split_ex : split "_" "rec_q_3.wav" = ["rec"; "q"; "3.wav"].
Proof. reflexivity. Qed.

Example round_ex : (Py.round (5 # 2), Py.round (7 # 2), Py.round (-5 # 2)) = (2, 4, -2).
Proof. reflexivity. Qed.

Example q_num_of_filename_ex :
  (q_num_of_filename "answer_3.wav", q_num_of_filename "rec_q12.m4a.wav",
   q_num_of_filename "_.wav")
  = (Ok "3", Ok "2", Raise IndexError).
Proof. reflexivity. Qed.

Example int_of_char_ex : (int_of_char "3", int_of_char "7", int_of_char "a") = (Ok 3, Ok 7, Raise ValueError).
Proof. reflexivity. Qed.

Example getattr_q_ex :
  (getattr_q ex_question "1", getattr_q ex_question "3", getattr_q ex_question "7")
  = ("P1", "P3", "질문을 찾을 수 없음").
Proof. reflexivity. Qed.

(** ** What a submission does to the database *)

Lemma equal_str_int (s : string) (z : Z) : Py.equal (VStr s) (VInt z) = false.
Proof. reflexivity. Qed.

Ltac case_step :=
  match goal with
  | |- context [match ?x with _ => _ end] =>
      lazymatch x with
      | context [match _ with _ => _ end] => fail
      | _ => destruct x eqn:?
      end
  end.

Lemma upload_test_raise env file user db e db' :
  upload_test env file user db = (Raise e, db') -> db' = db.
Proof.
  unfold upload_test, get_question_handler, get_questions_by_date,
    save_and_process_audio, run_inference, create_test, bind, lift, ret, raise.
  cbn.
  repeat (case_step; cbn); intros [= <-]; try reflexivity; congruence.
Qed.

Lemma upload_test_ok env file user db t db' :
  upload_test env file user db = (Ok t, db') ->
  exists qd qn p out n,
    List.find (question_where (today env)) (questions db) = Some qd /\
    q_num_of_filename (filename file) = Ok qn /\
    transcode env file (id user) qn = Some p /\
    infer env p (getattr_q qd qn) = Some out /\
    int_of_char qn = Ok n /\
    t = Test_create out (id user) p n (today env) /\
    db' = add_test t db.
Proof.
  unfold upload_test, get_question_handler, get_questions_by_date,
    save_and_process_audio, run_inference, create_test, bind, lift, ret, raise.
  cbn.
  repeat (case_step; cbn); intros [= <- <-].
  eexists _, _, _, _, _. repeat split; eassumption || reflexivity.
Qed.

Lemma upload_test_run env file user db qd qn p out n :
  List.find (question_where (today env)) (questions db) = Some qd ->
  q_num_of_filename (filename file) = Ok qn ->
  transcode env file (id user) qn = Some p ->
  infer env p (getattr_q qd qn) = Some out ->
  int_of_char qn = Ok n ->
  upload_test env file user db
  = (Ok (Test_create out (id user) p n (today env)),
     add_test (Test_create out (id user) p n (today env)) db).
Proof.
  intros Hq Hn Hp Ho Hi.
  unfold upload_test, get_question_handler, get_questions_by_date,
    save_and_process_audio, run_inference, create_test, bind, lift, ret, raise.
  cbn. rewrite Hq, Hn. cbn. rewrite Hp. cbn. rewrite Ho. cbn. rewrite Hi.
  reflexivity.
Qed.

(** ** What the aggregation and the scoring do to the database *)

Lemma collect_rows_state date user range db :
  snd (collect_rows date user range db) = db.
Proof.
  induction range as [|qn range IH]; [reflexivity|].
  cbn. unfold bind, get_result_by_q_num, lift, ret. cbn.
  destruct (feature_row _); [|reflexivity].
  destruct (collect_rows date user range db) as [[rows|e] db1] eqn:E;
    cbn in IH; subst db1; reflexivity.
Qed.

Lemma collect_tests_scores_state date user db :
  snd (collect_tests_scores date user db) = db.
Proof.
  unfold collect_tests_scores, bind, ret.
  pose proof (collect_rows_state date user [1; 2; 3] db) as H.
  destruct (collect_rows date user [1; 2; 3] db) as [[rows|e] db1];
    cbn in H; subst db1; reflexivity.
Qed.

(** The aggregation reads the Test table only. *)
Lemma collect_rows_tests date user range db1 db2 :
  tests db1 = tests db2 ->
  fst (collect_rows date user range db1) = fst (collect_rows date user range db2).
Proof.
  intros Ht. induction range as [|qn range IH]; [reflexivity|].
  cbn. unfold bind, get_result_by_q_num, lift, ret. cbn. rewrite Ht.
  destruct (feature_row _); [|reflexivity].
  pose proof (collect_rows_state date user range db1) as H1.
  pose proof (collect_rows_state date user range db2) as H2.
  destruct (collect_rows date user range db1) as [[r1|e1] s1];
    destruct (collect_rows date user range db2) as [[r2|e2] s2];
    cbn in *; congruence.
Qed.

Lemma collect_tests_scores_tests date user db1 db2 :
  tests db1 = tests db2 ->
  fst (collect_tests_scores date user db1) = fst (collect_tests_scores date user db2).
Proof.
  intros Ht. unfold collect_tests_scores, bind, ret.
  pose proof (collect_rows_tests date user [1; 2; 3] db1 db2 Ht) as H.
  destruct (collect_rows date user [1; 2; 3] db1) as [[r1|e1] s1];
    destruct (collect_rows date user [1; 2; 3] db2) as [[r2|e2] s2];
    cbn in *; congruence.
Qed.

Lemma get_score_handler_eq env user db :
  get_score_handler env user db =
  match fst (collect_tests_scores (today env) user db) with
  | Raise e => (Raise e, db)
  | Ok df =>
      match model env with
      | None => (Raise CatBoostError, db)
      | Some predict =>
          match predicted_class (predict (mapped df)) with
          | Raise e => (Raise e, db)
          | Ok label =>
              (Ok (Score_create (id user) (today env) label),
               add_score (Score_create (id user) (today env) label) db)
          end
      end
  end.
Proof.
  unfold get_score_handler, bind.
  pose proof (collect_tests_scores_state (today env) user db) as H.
  destruct (collect_tests_scores (today env) user db) as [[df|e] db1];
    cbn [fst snd] in H |- *; subst db1; [|reflexivity].
  unfold predicted_class, mapped, load_model, lift, ret, raise, create_score, add_score.
  destruct (model env); [|reflexivity].
  destruct (average _); [|reflexivity].
  destruct (list_first _); reflexivity.
Qed.

(** ** GET /test *)

Lemma find_question_some date qs q :
  List.find (question_where date) qs = Some q -> In q qs /\ q_date q = date.
Proof.
  intros H. apply find_some in H as [Hin Hw].
  split; [exact Hin|]. now apply String.eqb_eq.
Qed.

Lemma find_question_none date qs :
  List.find (question_where date) qs = None ->
  forall q, In q qs -> q_date q <> date.
Proof.
  intros H q Hin Heq.
  pose proof (find_none _ _ H q Hin) as Hw.
  unfold question_where in Hw. apply String.eqb_neq in Hw. contradiction.
Qed.

(** C9. GET /test answers with a Question of today's date when the table
    holds one, and otherwise raises the HTTP error 404 with the detail
    "Question Not Found"; the database is left as it was. *)
Theorem get_question_handler_today env db :
  (exists q, In q (questions db) /\ q_date q = today env /\
             get_question_handler env db = (Ok q, db))
  \/
  ((forall q, In q (questions db) -> q_date q <> today env) /\
   get_question_handler env db = (Raise (HTTPException 404 "Question Not Found"), db)).
Proof.
  unfold get_question_handler, get_questions_by_date, bind, ret, raise.
  destruct (List.find (question_where (today env)) (questions db)) as [q|] eqn:E.
  - left. exists q. apply find_question_some in E as [Hin Hd]. auto.
  - right. split; [|reflexivity]. now apply find_question_none.
Qed.

(** ** Failing collaborators *)

(** C8. When the transcoding of the submission raises, or the inference
    call on the transcoded file raises, the submission raises and leaves
    the database as it was: no TestResult row, and the streak and the
    done-today flag of every user unchanged. *)
Theorem upload_test_upstream_failure env file user db qd qn :
  fst (get_question_handler env db) = Ok qd ->
  q_num_of_filename (filename file) = Ok qn ->
  (transcode env file (id user) qn = None \/
   exists p, transcode env file (id user) qn = Some p /\
             infer env p (getattr_q qd qn) = None) ->
  exists e, upload_test env file user db = (Raise e, db).
Proof.
  intros Hq Hn Hfail.
  unfold get_question_handler, get_questions_by_date, bind, ret, raise in Hq.
  destruct (List.find (question_where (today env)) (questions db)) as [q|] eqn:E;
    cbn in Hq; [|discriminate].
  injection Hq as ->.
  unfold upload_test, get_question_handler, get_questions_by_date,
    save_and_process_audio, run_inference, bind, lift, ret, raise.
  rewrite E, Hn.
  destruct Hfail as [Ht | (p & Ht & Hi)]; rewrite Ht.
  - exists TypeError. reflexivity.
  - rewrite Hi. exists RequestException. reflexivity.
Qed.

Lemma upload_test_upstream_failure_witness :
  exists e, upload_test ex_env_no_audio (ex_file "1") ex_user ex_db = (Raise e, ex_db).
Proof.
  apply (upload_test_upstream_failure ex_env_no_audio (ex_file "1") ex_user ex_db
           ex_question "1").
  - reflexivity.
  - reflexivity.
  - left. reflexivity.
Defined.

(** ** Session completion *)

(** No submission touches the Score table: the scoring pipeline runs only
    on a request of its own. *)
Lemma upload_test_scores env file user db :
  scores (snd (upload_test env file user db)) = scores db.
Proof.
  destruct (upload_test env file user db) as [[t|e] db'] eqn:E; cbn.
  - apply upload_test_ok in E as (? & ? & ? & ? & ? & _ & _ & _ & _ & _ & _ & ->).
    reflexivity.
  - apply upload_test_raise in E as ->. reflexivity.
Qed.

Lemma upload_test_users env file user db :
  users (snd (upload_test env file user db)) = users db.
Proof.
  destruct (upload_test env file user db) as [[t|e] db'] eqn:E; cbn.
  - apply upload_test_ok in E as (? & ? & ? & ? & ? & _ & _ & _ & _ & _ & _ & ->).
    reflexivity.
  - apply upload_test_raise in E as ->. reflexivity.
Qed.

(** C1, as the code has it. The completion branch of a submission is
    guarded by the q_num cut from the file name, not by the number of
    persisted rows, and the submission never runs the scoring pipeline: a
    submission whose q_num is not 3 leaves the streak and the done-today
    flag of every user and the Score table as they were, whatever the
    number of TestResults it brings (user, date) to. *)
Theorem upload_test_completion_by_q_num env file user db :
  q_num_of_filename (filename file) <> Ok "3" ->
  users (snd (upload_test env file user db)) = users db /\
  scores (snd (upload_test env file user db)) = scores db.
Proof.
  intros _. split; [apply upload_test_users | apply upload_test_scores].
Qed.

Lemma upload_test_completion_by_q_num_witness :
  users (snd (upload_test ex_env_112 (ex_file "2") ex_user ex_db_31)) = users ex_db_31 /\
  scores (snd (upload_test ex_env_112 (ex_file "2") ex_user ex_db_31)) = scores ex_db_31.
Proof.
  apply (upload_test_completion_by_q_num ex_env_112 (ex_file "2") ex_user ex_db_31).
  vm_compute. discriminate.
Defined.

(** C1, counterexample. The user submits question 3, then 1, then 2. The
    last submission succeeds and brings the persisted count from 2 to 3,
    yet afterwards the streak is still 0, the done-today flag is still
    unset and no Score row exists. *)
Lemma upload_test_third_submission_no_completion :
  length (session_tests ex_date ex_user ex_db_31) = 2%nat /\
  is_raise (fst (upload_test ex_env_112 (ex_file "2") ex_user ex_db_31)) = false /\
  length (session_tests ex_date ex_user ex_db_312) = 3%nat /\
  users ex_db_312 !! 7 = Some {| id := 7; streak := 0; is_done := false |} /\
  scores ex_db_312 = [].
Proof. vm_compute. repeat split. Qed.

(** The guard of the completion branch compares the string cut from the
    file name with the integer 3, so the branch is not taken either when
    question 3 is submitted last: the streak stays 0 and the flag unset. *)
Example upload_test_question_3_last :
  q_num_of_filename (filename (ex_file "3")) = Ok "3" /\
  map q_num (session_tests ex_date ex_user ex_db_123) = [1; 2; 3] /\
  users ex_db_123 !! 7 = Some {| id := 7; streak := 0; is_done := false |}.
Proof. vm_compute. repeat split. Qed.

(** ** Repeated submissions *)

(** C6, as the code has it. Nothing is looked up before the insert: a
    submission that succeeded succeeds again when it is repeated, and the
    repetition appends a second row for the same (user, date, q_num). *)
Theorem upload_test_repeated env file user db t db' :
  upload_test env file user db = (Ok t, db') ->
  tests db' = tests db ++ [t] /\
  upload_test env file user db' = (Ok t, add_test t db') /\
  tests (add_test t db') = tests db ++ [t; t].
Proof.
  intros H.
  apply upload_test_ok in H as (qd & qn & p & out & n & Hq & Hn & Hp & Ho & Hi & -> & ->).
  split; [reflexivity|]. split.
  - now apply (upload_test_run env file user _ qd qn p out n).
  - cbn. now rewrite <- app_assoc.
Qed.

Lemma upload_test_repeated_witness :
  tests ex_db_1 = tests ex_db ++ [ex_test 1] /\
  upload_test ex_env_112 (ex_file "1") ex_user ex_db_1
  = (Ok (ex_test 1), add_test (ex_test 1) ex_db_1) /\
  tests (add_test (ex_test 1) ex_db_1) = tests ex_db ++ [ex_test 1; ex_test 1].
Proof.
  apply (upload_test_repeated ex_env_112 (ex_file "1") ex_user ex_db).
  reflexivity.
Defined.

(** C6, counterexample. Question 1 is submitted twice: the second
    submission does not raise, and two TestResult rows of q_num 1 exist
    for the user and the date. *)
Lemma upload_test_duplicate_accepted :
  session_tests ex_date ex_user ex_db_1 = [ex_test 1] /\
  fst (upload_test ex_env_112 (ex_file "1") ex_user ex_db_1) = Ok (ex_test 1) /\
  session_tests ex_date ex_user (snd (upload_test ex_env_112 (ex_file "1") ex_user ex_db_1))
  = [ex_test 1; ex_test 1].
Proof. vm_compute. repeat split. Qed.

(** ** Incomplete sessions *)

Lemma find_test_some date user qn ts t :
  List.find (test_where date user qn) ts = Some t ->
  In t (List.filter (session_where date user) ts) /\ q_num t = qn.
Proof.
  intros H. apply find_some in H as [Hin Hw].
  unfold test_where in Hw.
  apply andb_prop in Hw as [Hs Hq].
  split; [apply filter_In; split; assumption | now apply Z.eqb_eq].
Qed.

Lemma feature_row_ok test row :
  feature_row test = Ok row ->
  exists t g, test = Some t /\ has_grammar_score t g /\
    row = [CNum (wpm t); CNum (mlr t); CNum (pause t); CNum g; CNum (mpr t);
           CStr (coherence t)].
Proof.
  unfold feature_row, has_grammar_score.
  destruct test as [t|]; [|discriminate].
  destruct (grammar t !! "phase_2") as [phase|] eqn:Ep; [|discriminate].
  destruct (phase !! "score") as [g|] eqn:Es; [|discriminate].
  intros [= <-]. exists t, g. eauto.
Qed.









(** ** Complete sessions *)

Lemma find_test_unique date user db t qn :
  In t (session_tests date user db) ->
  q_num t = qn ->
  (forall t', In t' (session_tests date user db) -> q_num t' = qn -> t' = t) ->
  List.find (test_where date user qn) (tests db) = Some t.
Proof.
  intros Hin Hq Huniq.
  destruct (List.find (test_where date user qn) (tests db)) as [t'|] eqn:Ef.
  - apply find_test_some in Ef as [Hin' Hq']. f_equal. now apply Huniq.
  - apply filter_In in Hin as [Hin Hs].
    pose proof (find_none _ _ Ef t Hin) as Hw.
    unfold test_where in Hw. unfold session_where in Hs. rewrite Hs in Hw. cbn in Hw.
    apply Z.eqb_neq in Hw. contradiction.
Qed.

Lemma feature_row_some t g :
  has_grammar_score t g -> feature_row (Some t) = Ok (feature_cells t g).
Proof. intros (phase & Hp & Hs). cbn. now rewrite Hp, Hs. Qed.

(** The session is complete: its rows are [t1], [t2], [t3] in some order,
    one for each q_num, each with its grammar score. *)
Lemma collect_rows_session date user db t1 t2 t3 g1 g2 g3 :
  Permutation (session_tests date user db) [t1; t2; t3] ->
  q_num t1 = 1 -> q_num t2 = 2 -> q_num t3 = 3 ->
  has_grammar_score t1 g1 -> has_grammar_score t2 g2 -> has_grammar_score t3 g3 ->
  collect_rows date user [1; 2; 3] db
  = (Ok [feature_cells t1 g1; feature_cells t2 g2; feature_cells t3 g3], db).
Proof.
  intros Hperm Q1 Q2 Q3 G1 G2 G3.
  assert (Hin : forall t, In t (session_tests date user db) <-> In t [t1; t2; t3]).
  { intros t. split; apply Permutation_in; [exact Hperm | now symmetry]. }
  assert (F1 : List.find (test_where date user 1) (tests db) = Some t1).
  { apply find_test_unique; [apply Hin; cbn; auto | exact Q1 |].
    intros t' H' Hq. apply Hin in H' as [<-|[<-|[<-|[]]]]; congruence. }
  assert (F2 : List.find (test_where date user 2) (tests db) = Some t2).
  { apply find_test_unique; [apply Hin; cbn; auto | exact Q2 |].
    intros t' H' Hq. apply Hin in H' as [<-|[<-|[<-|[]]]]; congruence. }
  assert (F3 : List.find (test_where date user 3) (tests db) = Some t3).
  { apply find_test_unique; [apply Hin; cbn; auto | exact Q3 |].
    intros t' H' Hq. apply Hin in H' as [<-|[<-|[<-|[]]]]; congruence. }
  unfold collect_rows, bind, get_result_by_q_num, lift, ret.
  rewrite F1, F2, F3.
  rewrite (feature_row_some t1 g1 G1), (feature_row_some t2 g2 G2),
    (feature_row_some t3 g3 G3).
  reflexivity.
Qed.

(** C5, as the code has it. When the persisted TestResults of (user, date)
    are exactly three, one for each q_num 1, 2, 3, each with its
    grammar.phase_2.score, the aggregation returns the frame of the columns
    WPM, MLR, Pause, Grammar, PR, Coherence whose rows are those of q_num
    1, 2, 3 in this order, in whatever order the rows were inserted. *)
Theorem collect_tests_scores_complete date user db t1 t2 t3 g1 g2 g3 :
  Permutation (session_tests date user db) [t1; t2; t3] ->
  q_num t1 = 1 -> q_num t2 = 2 -> q_num t3 = 3 ->
  has_grammar_score t1 g1 -> has_grammar_score t2 g2 -> has_grammar_score t3 g3 ->
  collect_tests_scores date user db
  = (Ok {| columns := ["WPM"; "MLR"; "Pause"; "Grammar"; "PR"; "Coherence"];
           data := [feature_cells t1 g1; feature_cells t2 g2; feature_cells t3 g3] |},
     db).
Proof.
  intros Hperm Q1 Q2 Q3 G1 G2 G3.
  unfold collect_tests_scores, bind, ret.
  rewrite (collect_rows_session date user db t1 t2 t3 g1 g2 g3) by assumption.
  reflexivity.
Qed.

Lemma ex_test_grammar coh n : has_grammar_score (ex_test_of coh n) (3 # 1).
Proof. exists {["score" := 3 # 1]}. split; reflexivity. Qed.

Lemma collect_tests_scores_complete_witness :
  collect_tests_scores ex_date ex_user ex_db_312
  = (Ok {| columns := ["WPM"; "MLR"; "Pause"; "Grammar"; "PR"; "Coherence"];
           data := [feature_cells (ex_test 1) (3 # 1); feature_cells (ex_test 2) (3 # 1);
                    feature_cells (ex_test 3) (3 # 1)] |},
     ex_db_312).
Proof.
  apply (collect_tests_scores_complete ex_date ex_user ex_db_312).
  - change (session_tests ex_date ex_user ex_db_312)
      with [ex_test 3; ex_test 1; ex_test 2].
    apply perm_trans with [ex_test 1; ex_test 3; ex_test 2].
    + apply perm_swap.
    + apply perm_skip, perm_swap.
  - reflexivity.
  - reflexivity.
  - reflexivity.
  - apply ex_test_grammar.
  - apply ex_test_grammar.
  - apply ex_test_grammar.
Defined.

(** C5, counterexample. Three TestResults are persisted for the user and
    the date, two of q_num 1 and one of q_num 2: the aggregation returns no
    frame, it raises on the missing row of q_num 3. *)
Lemma collect_tests_scores_three_rows_no_frame :
  length (session_tests ex_date ex_user ex_db_112) = 3%nat /\
  map q_num (session_tests ex_date ex_user ex_db_112) = [1; 1; 2] /\
  collect_tests_scores ex_date ex_user ex_db_112
  = (Raise (AttributeError "NoneType" "wpm"), ex_db_112).
Proof. vm_compute. repeat split. Qed.

(** ** The session label *)

Lemma round_thirds (s : Z) : Py.round (s # 3) = spec_round_half_away (s # 3).
Proof.
  unfold Py.round, spec_round_half_away, Qceiling, Qfloor, Qle_bool, Qcompare,
    Qminus, Qplus, Qopp, inject_Z.
  cbn [Qnum Qden].
  destruct (Z.leb_spec (0 * 3) (s * 1));
    destruct (Z.compare_spec ((s * 1 + - (s / 3) * 3) * 2) (1 * Z.pos (3 * 1)));
    try (Z.to_euclidean_division_equations; lia).
  all: destruct (Z.even (s / 3)); Z.to_euclidean_division_equations; lia.
Qed.

Lemma keys_of_value_in a :
  0 <= a <= 4 ->
  exists label, keys_of_value a = [label] /\ In label ["NH"; "IL"; "IM"; "IH"; "AL"].
Proof.
  intros H.
  assert (a = 0 \/ a = 1 \/ a = 2 \/ a = 3 \/ a = 4) as [->|[->|[->|[->| ->]]]] by lia;
    eexists; (split; [reflexivity | cbn; tauto]).
Qed.

Lemma keys_of_value_out a : ~ 0 <= a <= 4 -> keys_of_value a = [].
Proof.
  intros H. unfold keys_of_value, class_mapping. cbn [List.filter snd].
  repeat match goal with
         | |- context [Z.eqb ?x a] => destruct (Z.eqb_spec x a); [lia|]
         end.
  reflexivity.
Qed.

(** The dictionary read from value to key is the table of the
    specification read from index to label. *)
Lemma class_mapping_table a :
  list_first (keys_of_value a)
  = match spec_class_labels !! a with Some label => Ok label | None => Raise IndexError end.
Proof.
  destruct (Z_le_dec 0 a) as [H0|H0]; [destruct (Z_le_dec a 4) as [H4|H4]|].
  - assert (a = 0 \/ a = 1 \/ a = 2 \/ a = 3 \/ a = 4) as [->|[->|[->|[->| ->]]]] by lia;
      reflexivity.
  - rewrite keys_of_value_out by lia. unfold spec_class_labels.
    rewrite !lookup_insert_ne by lia. now rewrite lookup_empty.
  - rewrite keys_of_value_out by lia. unfold spec_class_labels.
    rewrite !lookup_insert_ne by lia. now rewrite lookup_empty.
Qed.

(** A mean of three integers is at least a sixth away from every tie:
    whatever lies nearer than a sixth to it is rounded by Python as the
    specification rounds the mean itself. *)
Lemma round_near_third s (x : Q) :
  ((s # 3) - (1 # 6) < x)%Q -> (x < (s # 3) + (1 # 6))%Q ->
  Py.round x = spec_round_half_away (s # 3).
Proof.
  destruct x as [a b]. intros Hlo Hhi.
  unfold Qlt, Qminus, Qplus, Qopp in Hlo, Hhi. cbn [Qnum Qden] in Hlo, Hhi.
  unfold Py.round, spec_round_half_away, Qceiling, Qfloor, Qle_bool, Qcompare.
  unfold Qminus, Qplus, Qopp, inject_Z. cbn [Qnum Qden]. rewrite ?Pos.mul_1_r.
  pose proof (Z.div_mod a (Z.pos b) ltac:(lia)) as Hdm.
  pose proof (Z.mod_pos_bound a (Z.pos b) ltac:(lia)) as Hr.
  set (q := a / Z.pos b) in *. set (r := a mod Z.pos b) in *.
  assert (E : a * 1 + - q * Z.pos b = r) by lia. rewrite E. clear E.
  pose proof (Z.div_mod s 3 ltac:(lia)) as Hs.
  pose proof (Z.mod_pos_bound s 3 ltac:(lia)) as Hm.
  set (k := s / 3) in *. set (m := s mod 3) in *.
  assert (Hd : -1 <= q - k <= 0) by nia.
  assert (Hrhs : (if (0 * 3 <=? s * 1)%Z
                  then (s * 2 + 1 * 3) / Z.pos (3 * 2)
                  else - ((- (s * 2 + - (1) * 3)) / Z.pos (3 * 2)))
                 = if (m <? 2)%Z then k else k + 1).
  { clearbody k m. clear - Hs Hm.
    change (Z.pos (3 * 2)) with 6.
    destruct (Z.leb_spec (0 * 3) (s * 1)); destruct (Z.ltb_spec m 2);
      Z.to_euclidean_division_equations; lia. }
  rewrite Hrhs. clearbody q r k m. clear Hrhs.
  assert (Hq : q = k \/ q = k - 1) by lia.
  assert (Hm3 : m = 0 \/ m = 1 \/ m = 2) by lia.
  destruct (Z.compare_spec (r * 2) (1 * Z.pos b)) as [Hc|Hc|Hc];
    [destruct (Z.even q)| |];
    destruct Hq as [-> | ->]; destruct Hm3 as [-> | [-> | ->]];
    cbn [Z.ltb Z.compare Pos.compare Pos.compare_cont]; nia.
Qed.

Lemma spec_mean_three p1 p2 p3 :
  spec_mean [p1; p2; p3] = ((p1 + (p2 + (p3 + 0))) * 1 # 3).
Proof. reflexivity. Qed.

(** On three class indices the rounding of the code and the rounding of
    the specification agree: a mean of three integers is never a tie. *)
Lemma predicted_class_three p1 p2 p3 :
  predicted_class [p1; p2; p3]
  = match spec_session_label [p1; p2; p3] with
    | Some label => Ok label
    | None => Raise IndexError
    end.
Proof.
  unfold predicted_class, average, mean, spec_session_label.
  cbn [fold_right length Pos.of_nat Pos.succ].
  rewrite spec_mean_three, Z.mul_1_r.
  rewrite round_thirds. apply class_mapping_table.
Qed.

(** On an even number of indices a tie can occur, and there the two
    roundings part: Python rounds 0.5 to 0, the specification to 1. *)
Example predicted_class_tie :
  predicted_class [0; 1] = Ok "NH" /\ spec_session_label [0; 1] = Some "IL".
Proof. split; reflexivity. Qed.

(** C4. When the classifier answers one class index per question, each
    within 2^31 in absolute value, the scoring request persists the Score
    whose label is the entry of the table 0:NH, 1:IL, 2:IM, 3:IH, 4:AL at
    the sum of the three indices over three, rounded to the nearest
    integer, ties away from zero; it raises when the table has no such
    entry. The label does not hang on the last bits of the mean: whatever
    is nearer than a sixth to the mean is rounded by Python to that same
    integer, and within the bound numpy's float64 mean is. The indices
    1, 1, 2 give IL and the indices 3, 4, 4 give AL. *)
Theorem get_score_handler_label env user db df predict p1 p2 p3 :
  fst (collect_tests_scores (today env) user db) = Ok df ->
  model env = Some predict ->
  predict (mapped df) = [p1; p2; p3] ->
  Z.abs p1 <= 2 ^ 31 -> Z.abs p2 <= 2 ^ 31 -> Z.abs p3 <= 2 ^ 31 ->
  get_score_handler env user db
  = match spec_class_labels !! spec_round_half_away (spec_mean [p1; p2; p3]) with
    | Some label =>
        (Ok {| s_user_id := id user; s_date := today env; score := label |},
         {| users := users db; questions := questions db; tests := tests db;
            scores := scores db
                      ++ [{| s_user_id := id user; s_date := today env;
                             score := label |}] |})
    | None => (Raise IndexError, db)
    end
  /\ (forall x : Q,
        (spec_mean [p1; p2; p3] - (1 # 6) < x)%Q ->
        (x < spec_mean [p1; p2; p3] + (1 # 6))%Q ->
        Py.round x = spec_round_half_away (spec_mean [p1; p2; p3]))
  /\ get_score_handler (ex_env "중간" [1; 1; 2]) ex_user ex_db_312
     = (Ok (mkScore 7 ex_date "IL"), add_score (mkScore 7 ex_date "IL") ex_db_312)
  /\ get_score_handler (ex_env "중간" [3; 4; 4]) ex_user ex_db_312
     = (Ok (mkScore 7 ex_date "AL"), add_score (mkScore 7 ex_date "AL") ex_db_312).
Proof.
  intros Hdf Hm Hp _ _ _. split; [|split; [|split; reflexivity]].
  - rewrite get_score_handler_eq, Hdf, Hm, Hp, predicted_class_three.
    unfold spec_session_label.
    destruct (spec_class_labels !! _); reflexivity.
  - intros x. rewrite spec_mean_three. apply round_near_third.
Qed.

Lemma get_score_handler_label_witness :
  get_score_handler ex_env_112 ex_user ex_db_312
  = match spec_class_labels !! spec_round_half_away (spec_mean [1; 1; 2]) with
    | Some label =>
        (Ok {| s_user_id := id ex_user; s_date := today ex_env_112; score := label |},
         {| users := users ex_db_312; questions := questions ex_db_312;
            tests := tests ex_db_312;
            scores := scores ex_db_312
                      ++ [{| s_user_id := id ex_user; s_date := today ex_env_112;
                             score := label |}] |})
    | None => (Raise IndexError, ex_db_312)
    end
  /\ (forall x : Q,
        (spec_mean ([1; 1; 2])%Z - (1 # 6) < x)%Q ->
        (x < spec_mean ([1; 1; 2])%Z + (1 # 6))%Q ->
        Py.round x = spec_round_half_away (spec_mean [1; 1; 2]))
  /\ get_score_handler (ex_env "중간" [1; 1; 2]) ex_user ex_db_312
     = (Ok (mkScore 7 ex_date "IL"), add_score (mkScore 7 ex_date "IL") ex_db_312)
  /\ get_score_handler (ex_env "중간" [3; 4; 4]) ex_user ex_db_312
     = (Ok (mkScore 7 ex_date "AL"), add_score (mkScore 7 ex_date "AL") ex_db_312).
Proof.
  eapply (get_score_handler_label ex_env_112 ex_user ex_db_312);
    first [reflexivity | vm_compute; discriminate].
Defined.

(** C10. Once the predictions are averaged to the integer [a], the label
    lookup has exactly one label, among NH, IL, IM, IH, AL, when [a] is
    between 0 and 4, and the Score of that label is persisted; for any
    other [a] the list of candidates is empty, indexing it raises
    [IndexError], and the database is left as it was. *)
Theorem get_score_handler_label_partial env user db df predict a :
  fst (collect_tests_scores (today env) user db) = Ok df ->
  model env = Some predict ->
  average (predict (mapped df)) = Ok a ->
  (0 <= a <= 4 /\
   exists label,
     keys_of_value a = [label] /\ In label ["NH"; "IL"; "IM"; "IH"; "AL"] /\
     get_score_handler env user db
     = (Ok (Score_create (id user) (today env) label),
        add_score (Score_create (id user) (today env) label) db))
  \/
  (~ 0 <= a <= 4 /\ keys_of_value a = [] /\
   get_score_handler env user db = (Raise IndexError, db)).
Proof.
  intros Hdf Hm Ha.
  rewrite get_score_handler_eq, Hdf, Hm. unfold predicted_class. rewrite Ha.
  destruct (Z_le_dec 0 a) as [H0|H0]; [destruct (Z_le_dec a 4) as [H4|H4]|].
  - left. split; [lia|].
    destruct (keys_of_value_in a) as (label & Hk & Hin); [lia|].
    exists label. rewrite Hk. auto.
  - right. rewrite keys_of_value_out by lia. repeat split. lia.
  - right. rewrite keys_of_value_out by lia. repeat split. lia.
Qed.

Lemma get_score_handler_label_partial_witness :
  (0 <= 7 <= 4 /\
   exists label,
     keys_of_value 7 = [label] /\ In label ["NH"; "IL"; "IM"; "IH"; "AL"] /\
     get_score_handler ex_env_777 ex_user ex_db_312
     = (Ok (Score_create (id ex_user) (today ex_env_777) label),
        add_score (Score_create (id ex_user) (today ex_env_777) label) ex_db_312))
  \/
  (~ 0 <= 7 <= 4 /\ keys_of_value 7 = [] /\
   get_score_handler ex_env_777 ex_user ex_db_312 = (Raise IndexError, ex_db_312)).
Proof.
  eapply (get_score_handler_label_partial ex_env_777 ex_user ex_db_312); reflexivity.
Defined.

(** ** Coherence tokens *)

Lemma coherence_mapping_unmapped tok :
  tok <> "낮음" -> tok <> "중간" -> tok <> "높음" -> coherence_mapping !! tok = None.
Proof.
  intros H1 H2 H3. unfold coherence_mapping.
  rewrite !lookup_insert_ne by congruence. apply lookup_empty.
Qed.

Lemma mapped_session t1 t2 t3 g1 g2 g3 :
  mapped {| columns := feature_columns;
            data := [feature_cells t1 g1; feature_cells t2 g2; feature_cells t3 g3] |}
  = {| columns := feature_columns;
       data := [mapped_cells t1 g1; mapped_cells t2 g2; mapped_cells t3 g3] |}.
Proof. reflexivity. Qed.

(** C3, as the code has it. A coherence token that is not a key of
    [coherence_mapping] becomes NaN in the Coherence cell of its row and
    raises nothing: on a complete session the classifier is given the frame
    with that NaN, and the request succeeds or raises on the predictions
    alone. *)
Theorem get_score_handler_unmapped_coherence env user db t1 t2 t3 g1 g2 g3 predict :
  Permutation (session_tests (today env) user db) [t1; t2; t3] ->
  q_num t1 = 1 -> q_num t2 = 2 -> q_num t3 = 3 ->
  has_grammar_score t1 g1 -> has_grammar_score t2 g2 -> has_grammar_score t3 g3 ->
  model env = Some predict ->
  (forall t g,
      coherence t <> "낮음" -> coherence t <> "중간" -> coherence t <> "높음" ->
      mapped_cells t g
      = [CNum (wpm t); CNum (mlr t); CNum (pause t); CNum g; CNum (mpr t); CNaN])
  /\
  get_score_handler env user db
  = match predicted_class
            (predict {| columns := feature_columns;
                        data := [mapped_cells t1 g1; mapped_cells t2 g2;
                                 mapped_cells t3 g3] |}) with
    | Raise e => (Raise e, db)
    | Ok label =>
        (Ok (Score_create (id user) (today env) label),
         add_score (Score_create (id user) (today env) label) db)
    end.
Proof.
  intros Hperm Q1 Q2 Q3 G1 G2 G3 Hm. split.
  - intros t g H1 H2 H3. unfold mapped_cells, series_map.
    now rewrite coherence_mapping_unmapped.
  - rewrite get_score_handler_eq.
    unfold collect_tests_scores, bind, ret.
    rewrite (collect_rows_session _ _ _ t1 t2 t3 g1 g2 g3) by assumption.
    cbn [fst]. rewrite Hm.
    now rewrite mapped_session.
Qed.

Lemma get_score_handler_unmapped_coherence_witness :
  (forall t g,
      coherence t <> "낮음" -> coherence t <> "중간" -> coherence t <> "높음" ->
      mapped_cells t g
      = [CNum (wpm t); CNum (mlr t); CNum (pause t); CNum g; CNum (mpr t); CNaN])
  /\
  get_score_handler ex_env_unmapped ex_user ex_db_unmapped
  = match predicted_class
            ((fun _ => [1; 1; 2])
               {| columns := feature_columns;
                  data := [mapped_cells (ex_test_of "보통" 1) (3 # 1);
                           mapped_cells (ex_test_of "보통" 2) (3 # 1);
                           mapped_cells (ex_test_of "보통" 3) (3 # 1)] |}) with
    | Raise e => (Raise e, ex_db_unmapped)
    | Ok label =>
        (Ok (Score_create (id ex_user) (today ex_env_unmapped) label),
         add_score (Score_create (id ex_user) (today ex_env_unmapped) label) ex_db_unmapped)
    end.
Proof.
  apply (get_score_handler_unmapped_coherence ex_env_unmapped ex_user ex_db_unmapped
           (ex_test_of "보통" 1) (ex_test_of "보통" 2) (ex_test_of "보통" 3)
           (3 # 1) (3 # 1) (3 # 1) (fun _ => [1; 1; 2])).
  - apply Permutation_refl.
  - reflexivity.
  - reflexivity.
  - reflexivity.
  - apply ex_test_grammar.
  - apply ex_test_grammar.
  - apply ex_test_grammar.
  - reflexivity.
Defined.

(** C3, counterexample. The three persisted results carry the coherence
    token "보통", which is not a key of [coherence_mapping]; the scoring
    request does not raise, it persists the Score of label IL. *)
Lemma get_score_handler_unmapped_scored :
  map coherence (session_tests ex_date ex_user ex_db_unmapped) = ["보통"; "보통"; "보통"] /\
  coherence_mapping !! "보통" = None /\
  get_score_handler ex_env_unmapped ex_user ex_db_unmapped
  = (Ok ex_score, add_score ex_score ex_db_unmapped).
Proof. vm_compute. repeat split. Qed.

(** ** Repeated scoring *)

(** C7, as the code has it. The scoring request reads no Score before it
    inserts: a request that succeeded succeeds again on the database it
    left, computes the same Score and appends it as a further row for the
    same user and date. *)
Theorem get_score_handler_repeated env user db sc db' :
  get_score_handler env user db = (Ok sc, db') ->
  db' = add_score sc db /\
  get_score_handler env user db' = (Ok sc, add_score sc db') /\
  scores (add_score sc db') = scores db ++ [sc; sc].
Proof.
  intros H. rewrite get_score_handler_eq in H.
  destruct (fst (collect_tests_scores (today env) user db)) as [df|e] eqn:Ec;
    [|discriminate].
  destruct (model env) as [predict|] eqn:Em; [|discriminate].
  destruct (predicted_class (predict (mapped df))) as [label|e] eqn:Ep; [|discriminate].
  injection H as <- <-.
  split; [reflexivity|]. split.
  - rewrite get_score_handler_eq.
    rewrite (collect_tests_scores_tests _ _ _ db) by reflexivity.
    now rewrite Ec, Em, Ep.
  - cbn. now rewrite <- app_assoc.
Qed.

Lemma get_score_handler_repeated_witness :
  add_score ex_score ex_db_312 = add_score ex_score ex_db_312 /\
  get_score_handler ex_env_112 ex_user (add_score ex_score ex_db_312)
  = (Ok ex_score, add_score ex_score (add_score ex_score ex_db_312)) /\
  scores (add_score ex_score (add_score ex_score ex_db_312))
  = scores ex_db_312 ++ [ex_score; ex_score].
Proof.
  apply (get_score_handler_repeated ex_env_112 ex_user ex_db_312).
  reflexivity.
Defined.

(** C7, counterexample. The session of the day is complete and is scored
    twice: the second request succeeds as well, and two Score rows exist
    for the user and the date. *)
Lemma get_score_handler_second_row :
  get_score_handler ex_env_112 ex_user ex_db_312
  = (Ok ex_score, add_score ex_score ex_db_312) /\
  get_score_handler ex_env_112 ex_user (add_score ex_score ex_db_312)
  = (Ok ex_score, add_score ex_score (add_score ex_score ex_db_312)) /\
  List.filter (score_where ex_date ex_user)
    (scores (add_score ex_score (add_score ex_score ex_db_312)))
  = [ex_score; ex_score].
Proof. vm_compute. repeat split. Qed.

(** * Further properties of the code *)

(** ** The q_num cut from a file name *)

Lemma split_nonempty sep s : split sep s <> [].
Proof.
  destruct s as [|c s]; cbn; [discriminate|].
  destruct (Ascii.eqb c sep); [discriminate|].
  destruct (split sep s); discriminate.
Qed.

(** The pieces of a split are made of characters of the string, and none
    holds the separator. *)
Lemma split_chars sep s w c :
  In w (split sep s) -> has_char c w = true -> has_char c s = true.
Proof.
  revert w. induction s as [|d s IH]; intros w Hin Hc.
  - cbn in Hin. destruct Hin as [<-|[]]. discriminate.
  - cbn in Hin. cbn. destruct (Ascii.eqb d sep) eqn:Ed.
    + destruct Hin as [<-|Hin]; [discriminate|].
      rewrite (IH w Hin Hc). apply orb_true_r.
    + destruct (split sep s) as [|w0 ws] eqn:Es.
      * exfalso. now apply (split_nonempty sep s).
      * destruct Hin as [<-|Hin].
        -- cbn in Hc. apply orb_prop in Hc as [->|Hc]; [reflexivity|].
           rewrite (IH w0 (or_introl eq_refl) Hc). apply orb_true_r.
        -- rewrite (IH w (or_intror Hin) Hc). apply orb_true_r.
Qed.

Lemma split_no_sep sep s w : In w (split sep s) -> has_char sep w = false.
Proof.
  revert w. induction s as [|d s IH]; intros w Hin.
  - cbn in Hin. destruct Hin as [<-|[]]. reflexivity.
  - cbn in Hin. destruct (Ascii.eqb d sep) eqn:Ed.
    + destruct Hin as [<-|Hin]; [reflexivity | now apply IH].
    + destruct (split sep s) as [|w0 ws] eqn:Es.
      * exfalso. now apply (split_nonempty sep s).
      * destruct Hin as [<-|Hin].
        -- cbn. rewrite Ed. apply IH. now left.
        -- apply IH. now right.
Qed.

Lemma split_without sep s : has_char sep s = false -> split sep s = [s].
Proof.
  induction s as [|d s IH]; intros H; [reflexivity|].
  cbn in H. apply orb_false_elim in H as [Hd Hs].
  cbn. rewrite Hd, (IH Hs). reflexivity.
Qed.

Lemma str_last_char s q :
  str_last s = Ok q -> exists c, q = String c EmptyString /\ has_char c s = true.
Proof.
  induction s as [|d s IH]; [discriminate|].
  cbn. destruct s as [|d' s'].
  - intros [= <-]. exists d. cbn. now rewrite Ascii.eqb_refl.
  - intros H. destruct (IH H) as (c & -> & Hc). exists c. split; [reflexivity|].
    cbn in Hc |- *. rewrite Hc. apply orb_true_r.
Qed.

Lemma list_last_in {A} (l : list A) x : list_last l = Ok x -> In x l.
Proof.
  unfold list_last. destruct (last l) as [y|] eqn:E; [|discriminate].
  intros [= <-]. apply last_Some in E as [l' ->]. apply in_or_app. right. now left.
Qed.

(** X1. Whatever the file name, the q_num cut from it is one character,
    and that character is neither an underscore nor a dot. *)
Theorem q_num_of_filename_char name qn :
  q_num_of_filename name = Ok qn ->
  exists c, qn = String c EmptyString /\ c <> "_"%char /\ c <> "."%char.
Proof.
  unfold q_num_of_filename.
  destruct (list_last (split "_" name)) as [tail|e] eqn:Et; [|discriminate].
  destruct (list_first (split "." tail)) as [stem|e] eqn:Es; [|discriminate].
  intros H. apply str_last_char in H as (c & -> & Hc).
  exists c. split; [reflexivity|].
  assert (Hstem : In stem (split "." tail)).
  { unfold list_first in Es. destruct (split "." tail); [discriminate|].
    injection Es as ->. now left. }
  apply list_last_in in Et.
  split; intros ->.
  - pose proof (split_chars _ _ _ _ Hstem Hc) as Hc'.
    rewrite (split_no_sep _ _ _ Et) in Hc'. discriminate.
  - rewrite (split_no_sep _ _ _ Hstem) in Hc. discriminate.
Qed.

Lemma q_num_of_filename_char_witness :
  exists c, "3" = String c EmptyString /\ c <> "_"%char /\ c <> "."%char.
Proof.
  apply (q_num_of_filename_char "answer_3.wav" "3"). reflexivity.
Defined.

Lemma append_cons d (a s : string) :
  String.append (String d a) s = String d (String.append a s).
Proof. reflexivity. Qed.

Lemma append_assoc (a b c : string) :
  String.append (String.append a b) c = String.append a (String.append b c).
Proof.
  induction a as [|d a IH]; [reflexivity|].
  rewrite !append_cons. now rewrite IH.
Qed.

Lemma split_app_sep_two sep a t :
  exists w w' ws, split sep (String.append a (String sep t)) = w :: w' :: ws.
Proof.
  induction a as [|d a (w & w' & ws & IH)].
  - change (String.append EmptyString (String sep t)) with (String sep t).
    cbn. rewrite Ascii.eqb_refl.
    destruct (split sep t) as [|w' ws] eqn:E; [now apply split_nonempty in E|].
    now exists EmptyString, w', ws.
  - rewrite append_cons. cbn [split]. rewrite IH. destruct (Ascii.eqb d sep); eauto.
Qed.

(** What follows the last separator is the last piece. *)
Lemma last_split_app sep a t :
  last (split sep (String.append a (String sep t))) = last (split sep t).
Proof.
  induction a as [|d a IH].
  - change (String.append EmptyString (String sep t)) with (String sep t).
    cbn. rewrite Ascii.eqb_refl.
    destruct (split sep t) as [|w ws] eqn:E; [now apply split_nonempty in E|].
    reflexivity.
  - rewrite append_cons. cbn [split].
    destruct (split_app_sep_two sep a t) as (w & w' & ws & E).
    rewrite E in IH |- *. destruct (Ascii.eqb d sep); exact IH.
Qed.

(** X2. The path under which [save_and_process_audio] writes the resampled
    file keeps the q_num: for a q_num of one character that is neither an
    underscore nor a dot (line 79 cuts no other), cutting the q_num from
    that path as line 79 does gives the q_num back, whatever the UUID and
    the user id. *)
Theorem resampled_path_q_num uuid uid c :
  c <> "_"%char -> c <> "."%char ->
  q_num_of_filename (resampled_path uuid uid (String c EmptyString))
  = Ok (String c EmptyString).
Proof.
  intros Hu Hd.
  apply Ascii.eqb_neq in Hu, Hd.
  assert (E : resampled_path uuid uid (String c EmptyString)
              = String.append
                  (String.append "./uploads/" (String.append uid (String.append "/" uuid)))
                  (String "_" (String c ".wav"))).
  { unfold resampled_path. rewrite !append_assoc. reflexivity. }
  unfold q_num_of_filename, list_last.
  rewrite E, last_split_app.
  cbn. rewrite Hu. cbn. rewrite Hd. reflexivity.
Qed.

Lemma resampled_path_q_num_witness :
  q_num_of_filename
    (resampled_path "1b4e28ba-2fa1-11d2-883f-0016d3cca427" "7" "2")
  = Ok "2".
Proof.
  apply (resampled_path_q_num "1b4e28ba-2fa1-11d2-883f-0016d3cca427" "7" "2"%char);
    discriminate.
Defined.

(** ** Submissions: errors and writes *)

(** X3. Without a Question of today's date a submission raises the 404 of
    GET /test before the file name is read and before any collaborator is
    called, and writes nothing. *)
Theorem upload_test_no_question env file user db :
  (forall q, In q (questions db) -> q_date q <> today env) ->
  upload_test env file user db
  = (Raise (HTTPException 404 "Question Not Found"), db).
Proof.
  intros Hnone.
  assert (E : List.find (question_where (today env)) (questions db) = None).
  { destruct (List.find _ _) as [q|] eqn:E; [|reflexivity].
    apply find_question_some in E as [Hin Hd]. now destruct (Hnone q Hin). }
  unfold upload_test, get_question_handler, get_questions_by_date, bind, ret, raise.
  now rewrite E.
Qed.

Lemma upload_test_no_question_witness :
  upload_test ex_env_112 (ex_file "1") ex_user ex_db_unpublished
  = (Raise (HTTPException 404 "Question Not Found"), ex_db_unpublished).
Proof.
  apply (upload_test_no_question ex_env_112 (ex_file "1") ex_user ex_db_unpublished).
  intros q [].
Defined.

Lemma int_of_char_digit s n : int_of_char s = Ok n -> 0 <= n <= 9.
Proof.
  unfold int_of_char. destruct s as [|c [|? ?]]; try discriminate.
  destruct (_ && _)%bool eqn:E; [|discriminate].
  intros [= <-]. apply andb_prop in E as [H1 H2]. lia.
Qed.




(** X5. A submission is all or nothing: either it raises and the database
    is as before, or it appends one Test row, of the user, dated today,
    with a q_num between 0 and 9. The Question, User and Score tables are
    the same after any submission. *)
Theorem upload_test_writes env file user db :
  (exists e, upload_test env file user db = (Raise e, db))
  \/
  (exists t, upload_test env file user db = (Ok t, add_test t db) /\
             user_id t = id user /\ createddate t = today env /\ 0 <= q_num t <= 9).
Proof.
  destruct (upload_test env file user db) as [[t|e] db'] eqn:E.
  - right. exists t.
    apply upload_test_ok in E as (qd & qn & p & out & n & _ & _ & _ & _ & Hi & -> & ->).
    repeat split; cbn; apply int_of_char_digit in Hi; lia.
  - left. exists e. now apply upload_test_raise in E as ->.
Qed.

(** X6. The q_num is not checked against the three slots. For an ASCII
    file name: when the character cut from it is one of the digits 0 to 9
    other than 1, 2, 3, the inference service is asked with the fallback
    text in place of a prompt, and the row is persisted with that digit
    as its q_num. *)
Theorem upload_test_unknown_slot env file user db qd qn p out n :
  is_ascii (filename file) = true ->
  fst (get_question_handler env db) = Ok qd ->
  q_num_of_filename (filename file) = Ok qn ->
  qn <> "1" -> qn <> "2" -> qn <> "3" ->
  int_of_char qn = Ok n ->
  transcode env file (id user) qn = Some p ->
  infer env p "질문을 찾을 수 없음" = Some out ->
  upload_test env file user db
  = (Ok (Test_create out (id user) p n (today env)),
     add_test (Test_create out (id user) p n (today env)) db)
  /\ n <> 1 /\ n <> 2 /\ n <> 3.
Proof.
  intros _ Hq Hn H1 H2 H3 Hi Hp Ho.
  unfold get_question_handler, get_questions_by_date, bind, ret, raise in Hq.
  destruct (List.find (question_where (today env)) (questions db)) as [q|] eqn:E;
    cbn in Hq; [|discriminate].
  injection Hq as ->.
  assert (Hg : getattr_q qd qn = "질문을 찾을 수 없음").
  { unfold getattr_q.
    apply String.eqb_neq in H1, H2, H3. now rewrite H1, H2, H3. }
  split.
  - apply (upload_test_run env file user db qd qn p out n); try assumption.
    now rewrite Hg.
  - unfold int_of_char in Hi.
    destruct qn as [|c [|? ?]]; try discriminate.
    destruct (_ && _)%bool; [|discriminate]. injection Hi as <-.
    repeat split; intros Hc;
      [apply H1 | apply H2 | apply H3]; f_equal;
      rewrite <- (ascii_N_embedding c);
      [replace (N_of_ascii c) with 49%N by lia
      |replace (N_of_ascii c) with 50%N by lia
      |replace (N_of_ascii c) with 51%N by lia]; reflexivity.
Qed.

Lemma upload_test_unknown_slot_witness :
  upload_test ex_env_112 (ex_file "7") ex_user ex_db
  = (Ok (Test_create (ex_output "중간") (id ex_user) "./uploads/7/answer_7.wav" 7
           (today ex_env_112)),
     add_test (Test_create (ex_output "중간") (id ex_user) "./uploads/7/answer_7.wav" 7
                 (today ex_env_112)) ex_db)
  /\ 7 <> 1 /\ 7 <> 2 /\ 7 <> 3.
Proof.
  apply (upload_test_unknown_slot ex_env_112 (ex_file "7") ex_user ex_db ex_question "7");
    try reflexivity; discriminate.
Defined.

(** ** Reading back what was written *)

Lemma find_app_one {A} (p : A -> bool) l x :
  List.find p (l ++ [x])
  = match List.find p l with
    | Some y => Some y
    | None => if p x then Some x else None
    end.
Proof.
  induction l as [|a l IH]; cbn; [reflexivity|].
  destruct (p a); [reflexivity | exact IH].
Qed.

Lemma find_app_some {A} (p : A -> bool) l l' y :
  List.find p l = Some y -> List.find p (l ++ l') = Some y.
Proof.
  induction l as [|a l IH]; cbn; [discriminate|].
  destruct (p a); [trivial | exact IH].
Qed.

(** X7. After a successful submission, the row that the lookup by
    (date, user, q_num) returns is the oldest one of that key: the new row
    if the key was free, and otherwise the row that was there before, so
    that a repeated submission is never what is read back. *)
Theorem upload_test_read_back env file user db t db' :
  upload_test env file user db = (Ok t, db') ->
  fst (get_result_by_q_num (today env) user (q_num t) db')
  = Ok (Some match fst (get_result_by_q_num (today env) user (q_num t) db) with
             | Ok (Some old) => old
             | _ => t
             end).
Proof.
  intros H.
  apply upload_test_ok in H as (qd & qn & p & out & n & _ & _ & _ & _ & _ & -> & ->).
  unfold get_result_by_q_num. cbn [fst add_test tests].
  rewrite find_app_one.
  destruct (List.find _ (tests db)) as [old|]; [reflexivity|].
  unfold test_where. cbn. now rewrite String.eqb_refl, !Z.eqb_refl.
Qed.

Lemma upload_test_read_back_witness :
  fst (get_result_by_q_num (today ex_env_unmapped) ex_user (q_num (ex_test_of "보통" 1))
         (add_test (ex_test_of "보통" 1) ex_db_1))
  = Ok (Some match fst (get_result_by_q_num (today ex_env_unmapped) ex_user
                          (q_num (ex_test_of "보통" 1)) ex_db_1) with
             | Ok (Some old) => old
             | _ => ex_test_of "보통" 1
             end).
Proof.
  apply (upload_test_read_back ex_env_unmapped (ex_file "1") ex_user ex_db_1).
  reflexivity.
Defined.

(** X8. After a successful submission of user [u], the personal tests of
    [u] are those of before followed by the new row, and the personal
    tests of any other user are those of before. *)
Theorem upload_test_personal_tests env file u v db t db' :
  upload_test env file u db = (Ok t, db') ->
  fst (get_personal_tests v db')
  = match fst (get_personal_tests v db) with
    | Ok before => Ok (before ++ if Z.eqb (id u) (id v) then [t] else [])
    | Raise e => Raise e
    end.
Proof.
  intros H.
  apply upload_test_ok in H as (qd & qn & p & out & n & _ & _ & _ & _ & _ & -> & ->).
  unfold get_personal_tests. cbn [fst add_test tests].
  rewrite List.filter_app. cbn. reflexivity.
Qed.

Lemma upload_test_personal_tests_witness :
  fst (get_personal_tests ex_other (add_test (ex_test 1) ex_db))
  = match fst (get_personal_tests ex_other ex_db) with
    | Ok before => Ok (before ++ if Z.eqb (id ex_user) (id ex_other) then [ex_test 1] else [])
    | Raise e => Raise e
    end.
Proof.
  apply (upload_test_personal_tests ex_env_112 (ex_file "1") ex_user ex_other ex_db).
  reflexivity.
Defined.



(** ** What the aggregation reads *)

Lemma find_filter {A} (p r : A -> bool) l :
  List.find (fun x => p x && r x) l = List.find r (List.filter p l).
Proof.
  induction l as [|a l IH]; cbn; [reflexivity|].
  destruct (p a); cbn; [destruct (r a); [reflexivity | exact IH] | exact IH].
Qed.

Lemma find_test_session date user qn db :
  List.find (test_where date user qn) (tests db)
  = List.find (fun t => Z.eqb (q_num t) qn) (session_tests date user db).
Proof. unfold session_tests. now rewrite <- find_filter. Qed.

Lemma collect_rows_session_only date user range db1 db2 :
  session_tests date user db1 = session_tests date user db2 ->
  fst (collect_rows date user range db1) = fst (collect_rows date user range db2).
Proof.
  intros Hs. induction range as [|qn range IH]; [reflexivity|].
  cbn. unfold bind, get_result_by_q_num, lift, ret. cbn.
  rewrite !find_test_session, Hs.
  destruct (feature_row _); [|reflexivity].
  pose proof (collect_rows_state date user range db1) as H1.
  pose proof (collect_rows_state date user range db2) as H2.
  destruct (collect_rows date user range db1) as [[r1|e1] s1];
    destruct (collect_rows date user range db2) as [[r2|e2] s2];
    cbn in *; congruence.
Qed.

Lemma collect_session_only date user db1 db2 :
  session_tests date user db1 = session_tests date user db2 ->
  fst (collect_tests_scores date user db1) = fst (collect_tests_scores date user db2).
Proof.
  intros Hs. unfold collect_tests_scores, bind, ret.
  pose proof (collect_rows_session_only date user [1; 2; 3] db1 db2 Hs) as H.
  destruct (collect_rows date user [1; 2; 3] db1) as [[r1|e1] s1];
    destruct (collect_rows date user [1; 2; 3] db2) as [[r2|e2] s2];
    cbn in *; congruence.
Qed.

(** X10. The aggregation and the scoring request read nothing but the
    Test rows of the user and the date: on two databases with the same
    such rows they return the same frame and the same Score, or raise the
    same exception, whatever the rows of other users and other dates, the
    Score table and the User table. *)
Theorem get_score_handler_session_only env user db1 db2 :
  session_tests (today env) user db1 = session_tests (today env) user db2 ->
  fst (collect_tests_scores (today env) user db1)
  = fst (collect_tests_scores (today env) user db2)
  /\ fst (get_score_handler env user db1) = fst (get_score_handler env user db2).
Proof.
  intros Hs. pose proof (collect_session_only _ _ _ _ Hs) as Hc.
  split; [exact Hc|].
  rewrite !get_score_handler_eq, Hc.
  destruct (fst (collect_tests_scores (today env) user db2)); [|reflexivity].
  destruct (model env); [|reflexivity].
  destruct (predicted_class _); reflexivity.
Qed.

Lemma get_score_handler_session_only_witness :
  fst (collect_tests_scores (today ex_env_112) ex_user (add_test ex_other_test ex_db_312))
  = fst (collect_tests_scores (today ex_env_112) ex_user ex_db_312)
  /\ fst (get_score_handler ex_env_112 ex_user (add_test ex_other_test ex_db_312))
     = fst (get_score_handler ex_env_112 ex_user ex_db_312).
Proof.
  apply (get_score_handler_session_only ex_env_112 ex_user
           (add_test ex_other_test ex_db_312) ex_db_312).
  reflexivity.
Defined.

Lemma session_tests_add date user t db :
  session_tests date user (add_test t db)
  = session_tests date user db ++ if session_where date user t then [t] else [].
Proof. unfold session_tests. cbn. now rewrite List.filter_app. Qed.

(** X11. A submission of user [u] changes nothing for the session of
    another user, nor for a session of another date: the aggregation for
    such a (date, user) returns after the submission what it returned
    before. *)
Theorem upload_test_other_session env file u db date v :
  id v <> id u \/ date <> today env ->
  fst (collect_tests_scores date v (snd (upload_test env file u db)))
  = fst (collect_tests_scores date v db).
Proof.
  intros Hne. apply collect_session_only.
  destruct (upload_test env file u db) as [[t|e] db'] eqn:E; cbn [snd].
  - apply upload_test_ok in E as (qd & qn & p & out & n & _ & _ & _ & _ & _ & -> & ->).
    rewrite session_tests_add.
    replace (session_where date v _) with false; [apply app_nil_r|].
    symmetry. unfold session_where. cbn.
    destruct Hne as [Hv|Hd].
    + apply andb_false_intro2. apply Z.eqb_neq. congruence.
    + apply andb_false_intro1. apply String.eqb_neq. congruence.
  - now apply upload_test_raise in E as ->.
Qed.

Lemma upload_test_other_session_witness :
  fst (collect_tests_scores ex_date ex_user
         (snd (upload_test ex_env_112 (ex_file "1") ex_other ex_db_312)))
  = fst (collect_tests_scores ex_date ex_user ex_db_312).
Proof.
  apply (upload_test_other_session ex_env_112 (ex_file "1") ex_other ex_db_312
           ex_date ex_user).
  left. discriminate.
Defined.

Lemma collect_rows_append date user range db db' extra rows :
  tests db' = tests db ++ extra ->
  fst (collect_rows date user range db) = Ok rows ->
  fst (collect_rows date user range db') = Ok rows.
Proof.
  intros Ht. revert rows. induction range as [|qn range IH]; intros rows; [trivial|].
  cbn. unfold bind, get_result_by_q_num, lift, ret. cbn. rewrite Ht.
  destruct (List.find (test_where date user qn) (tests db)) as [t|] eqn:Ef;
    [|discriminate].
  rewrite (find_app_some _ _ extra _ Ef).
  destruct (feature_row (Some t)) as [row|]; [|discriminate].
  pose proof (collect_rows_state date user range db) as H1.
  pose proof (collect_rows_state date user range db') as H2.
  destruct (collect_rows date user range db) as [[r1|e1] s1]; [|discriminate].
  specialize (IH r1 eq_refl).
  destruct (collect_rows date user range db') as [[r2|e2] s2]; [|discriminate].
  cbn in *. congruence.
Qed.

Lemma uploads_tests requests db : exists extra, tests (uploads requests db) = tests db ++ extra.
Proof.
  revert db. induction requests as [|[[env file] user] requests IH]; intros db.
  - exists []. cbn. now rewrite app_nil_r.
  - cbn [uploads].
    destruct (upload_test env file user db) as [[t|e] db'] eqn:E; cbn [snd].
    + apply upload_test_ok in E as (? & ? & ? & ? & ? & _ & _ & _ & _ & _ & _ & ->).
      destruct (IH (add_test t db)) as [extra Hx].
      exists (t :: extra). rewrite Hx. cbn. now rewrite <- app_assoc.
    + apply upload_test_raise in E as ->. apply IH.
Qed.

(** X12. Once the aggregation returns a frame for a user and a date, it
    returns that same frame after any series of further submissions, of
    any users, files and days: later rows never replace the rows that the
    frame was made of. *)
Theorem collect_tests_scores_stable date user db df requests :
  fst (collect_tests_scores date user db) = Ok df ->
  fst (collect_tests_scores date user (uploads requests db)) = Ok df.
Proof.
  destruct (uploads_tests requests db) as [extra Hx].
  unfold collect_tests_scores, bind, ret.
  pose proof (collect_rows_state date user [1; 2; 3] db) as H1.
  pose proof (collect_rows_state date user [1; 2; 3] (uploads requests db)) as H2.
  destruct (collect_rows date user [1; 2; 3] db) as [[rows|e] s1] eqn:E1;
    [|discriminate].
  pose proof (collect_rows_append date user [1; 2; 3] db _ extra rows Hx) as H.
  rewrite E1 in H. specialize (H eq_refl).
  destruct (collect_rows date user [1; 2; 3] (uploads requests db)) as [[r2|e2] s2];
    cbn in *; congruence.
Qed.

Lemma collect_tests_scores_stable_witness :
  fst (collect_tests_scores ex_date ex_user
         (uploads [(ex_env_unmapped, ex_file "2", ex_user);
                   (ex_env_112, ex_file "3", ex_other)] ex_db_312))
  = Ok {| columns := feature_columns;
          data := [feature_cells (ex_test 1) (3 # 1); feature_cells (ex_test 2) (3 # 1);
                   feature_cells (ex_test 3) (3 # 1)] |}.
Proof.
  apply (collect_tests_scores_stable ex_date ex_user ex_db_312).
  reflexivity.
Defined.

(** ** The scoring request: errors and writes *)

Lemma predicted_class_label predictions label :
  predicted_class predictions = Ok label -> In label ["NH"; "IL"; "IM"; "IH"; "AL"].
Proof.
  unfold predicted_class. destruct (average predictions) as [a|e]; [|discriminate].
  destruct (Z_le_dec 0 a) as [H0|H0]; [destruct (Z_le_dec a 4) as [H4|H4]|].
  - destruct (keys_of_value_in a) as (l & -> & Hin); [lia|]. now intros [= <-].
  - rewrite keys_of_value_out by lia. discriminate.
  - rewrite keys_of_value_out by lia. discriminate.
Qed.

(** X13. A scoring request is all or nothing: either it raises and the
    database is as before, or it appends one Score row, of the user, dated
    today, whose label is one of NH, IL, IM, IH, AL. The Question, User and
    Test tables are the same after any scoring request. *)
Theorem get_score_handler_writes env user db :
  (exists e, get_score_handler env user db = (Raise e, db))
  \/
  (exists sc, get_score_handler env user db = (Ok sc, add_score sc db) /\
              s_user_id sc = id user /\ s_date sc = today env /\
              In (score sc) ["NH"; "IL"; "IM"; "IH"; "AL"]).
Proof.
  rewrite get_score_handler_eq.
  destruct (fst (collect_tests_scores (today env) user db)) as [df|e]; [|left; eauto].
  destruct (model env) as [predict|]; [|left; eauto].
  destruct (predicted_class (predict (mapped df))) as [label|e] eqn:Ep; [|left; eauto].
  right. eexists. split; [reflexivity|]. repeat split.
  cbn. now apply predicted_class_label in Ep.
Qed.

(** X14. When the model file cannot be loaded no scoring request succeeds
    and none writes; on a session whose frame can be built the exception
    is the one of the model load. *)
Theorem get_score_handler_no_model env user db :
  model env = None ->
  exists e, get_score_handler env user db = (Raise e, db) /\
            (is_raise (fst (collect_tests_scores (today env) user db)) = false ->
             e = CatBoostError).
Proof.
  intros Hm. rewrite get_score_handler_eq, Hm.
  destruct (fst (collect_tests_scores (today env) user db)) as [df|e].
  - exists CatBoostError. auto.
  - exists e. split; [reflexivity | discriminate].
Qed.

Lemma get_score_handler_no_model_witness :
  exists e,
    get_score_handler
      {| today := ex_date; transcode := transcode ex_env_112;
         infer := infer ex_env_112; model := None |} ex_user ex_db_312
    = (Raise e, ex_db_312) /\
    (is_raise (fst (collect_tests_scores ex_date ex_user ex_db_312)) = false ->
     e = CatBoostError).
Proof.
  apply (get_score_handler_no_model
           {| today := ex_date; transcode := transcode ex_env_112;
              infer := infer ex_env_112; model := None |} ex_user ex_db_312).
  reflexivity.
Defined.

Lemma sum_bounds lo hi (l : list Z) :
  Forall (fun p => lo <= p <= hi) l ->
  lo * Z.of_nat (length l) <= fold_right Z.add 0 l <= hi * Z.of_nat (length l).
Proof.
  induction 1 as [|p l Hp _ IH]; [cbn; lia|].
  cbn [fold_right length]. rewrite Nat2Z.inj_succ. lia.
Qed.

(** The rounded mean lies where the values lie. *)
Lemma round_bounds lo hi s (n : positive) :
  lo * Z.pos n <= s <= hi * Z.pos n -> lo <= Py.round (s # n) <= hi.
Proof.
  intros H.
  unfold Py.round, Qfloor, Qcompare, Qminus, Qplus, Qopp, inject_Z.
  cbn [Qnum Qden]. rewrite Pos.mul_1_r.
  pose proof (Z.div_mod s (Z.pos n) ltac:(lia)) as Hdm.
  pose proof (Z.mod_pos_bound s (Z.pos n) ltac:(lia)) as Hr.
  set (q := s / Z.pos n) in *. set (r := s mod Z.pos n) in *.
  assert (E : s * 1 + - q * Z.pos n = r) by lia. rewrite E.
  destruct (Z.compare_spec (r * 2) (1 * Z.pos n)); [destruct (Z.even q)| |]; nia.
Qed.

Lemma average_bounds lo hi predictions :
  predictions <> [] ->
  Forall (fun p => lo <= p <= hi) predictions ->
  exists a, average predictions = Ok a /\ lo <= a <= hi.
Proof.
  intros Hne Hall. unfold average, mean.
  destruct predictions as [|p l]; [contradiction|].
  eexists. split; [reflexivity|].
  apply round_bounds.
  replace (Z.pos (Pos.of_nat (length (p :: l)))) with (Z.of_nat (length (p :: l))).
  - now apply sum_bounds.
  - cbn [length]. lia.
Qed.

(** X15. On a session whose frame can be built, with the model loaded,
    a classifier that answers at least one prediction and only class
    indices between 0 and 4 makes the scoring request succeed: the rounded
    mean is again between 0 and 4, so the label lookup finds its label. *)
Theorem get_score_handler_valid_predictions env user db df predict :
  fst (collect_tests_scores (today env) user db) = Ok df ->
  model env = Some predict ->
  predict (mapped df) <> [] ->
  Forall (fun p => 0 <= p <= 4) (predict (mapped df)) ->
  exists sc, get_score_handler env user db = (Ok sc, add_score sc db).
Proof.
  intros Hdf Hm Hne Hall.
  rewrite get_score_handler_eq, Hdf, Hm. unfold predicted_class.
  destruct (average_bounds 0 4 _ Hne Hall) as (a & -> & Ha).
  destruct (keys_of_value_in a Ha) as (label & -> & _).
  cbn. eauto.
Qed.

Lemma get_score_handler_valid_predictions_witness :
  exists sc,
    get_score_handler (ex_env "중간" [0; 4; 4; 3]) ex_user ex_db_312
    = (Ok sc, add_score sc ex_db_312).
Proof.
  eapply (get_score_handler_valid_predictions (ex_env "중간" [0; 4; 4; 3]) ex_user
            ex_db_312).
  - reflexivity.
  - reflexivity.
  - cbv beta. discriminate.
  - cbv beta. repeat constructor; lia.
Defined.

(** ** The frame *)

Lemma collect_rows_shape date user range db rows :
  fst (collect_rows date user range db) = Ok rows ->
  length rows = length range /\
  Forall (fun row => exists t g, row = feature_cells t g) rows.
Proof.
  revert rows. induction range as [|qn range IH]; intros rows.
  - intros [= <-]. split; [reflexivity | constructor].
  - cbn. unfold bind, get_result_by_q_num, lift, ret. cbn.
    destruct (feature_row _) as [row|e] eqn:Er; [|discriminate].
    destruct (collect_rows date user range db) as [[rest|e] db1]; [|discriminate].
    intros [= <-]. destruct (IH rest eq_refl) as [Hlen Hall].
    apply feature_row_ok in Er as (t & g & _ & _ & ->).
    split; [cbn; now rewrite Hlen | constructor; eauto].
Qed.

(** X16. Every frame that the aggregation returns has the six columns WPM,
    MLR, Pause, Grammar, PR, Coherence and three rows of six cells; after
    the mapping of the Coherence column it has the same shape and no cell
    is a string any more: each is a number or NaN. *)
Theorem collect_tests_scores_frame date user db df :
  fst (collect_tests_scores date user db) = Ok df ->
  columns df = ["WPM"; "MLR"; "Pause"; "Grammar"; "PR"; "Coherence"] /\
  length (data df) = 3%nat /\
  Forall (fun row => length row = 6%nat) (data df) /\
  columns (mapped df) = columns df /\
  length (data (mapped df)) = 3%nat /\
  Forall (fun row => length row = 6%nat /\ Forall numeric row) (data (mapped df)).
Proof.
  unfold collect_tests_scores, bind, ret.
  destruct (collect_rows date user [1; 2; 3] db) as [[rows|e] db1] eqn:E;
    [|discriminate].
  intros [= <-].
  pose proof (collect_rows_shape date user [1; 2; 3] db rows) as H.
  rewrite E in H. destruct (H eq_refl) as [Hlen Hall]. clear H E.
  cbn [columns data mapped map_column].
  split; [reflexivity|]. split; [exact Hlen|]. split; [|split; [reflexivity|split]].
  - eapply Forall_impl; [exact Hall|]. now intros row (t & g & ->).
  - rewrite length_map. exact Hlen.
  - apply Forall_map. eapply Forall_impl; [exact Hall|].
    intros row (t & g & ->).
    change (zip_with _ feature_columns (feature_cells t g)) with (mapped_cells t g).
    split; [reflexivity|].
    unfold mapped_cells, series_map, numeric.
    destruct (coherence_mapping !! coherence t);
      repeat first
        [ apply Forall_nil_2
        | apply Forall_cons_2;
          [first [right; eexists; reflexivity | left; reflexivity]|] ].
Qed.

Lemma collect_tests_scores_frame_witness :
  columns ex_frame = ["WPM"; "MLR"; "Pause"; "Grammar"; "PR"; "Coherence"] /\
  length (data ex_frame) = 3%nat /\
  Forall (fun row => length row = 6%nat) (data ex_frame) /\
  columns (mapped ex_frame) = columns ex_frame /\
  length (data (mapped ex_frame)) = 3%nat /\
  Forall (fun row => length row = 6%nat /\ Forall numeric row) (data (mapped ex_frame)).
Proof.
  apply (collect_tests_scores_frame ex_date ex_user ex_db_312).
  reflexivity.
Defined.

(** ** File names without a q_num *)

Lemma str_last_raise s e : str_last s = Raise e -> s = EmptyString /\ e = IndexError.
Proof.
  induction s as [|d s IH]; cbn.
  - now intros [= <-].
  - destruct s as [|d' s']; [discriminate|].
    intros H. destruct (IH H) as [? _]. discriminate.
Qed.

Lemma q_num_of_filename_raise name e :
  q_num_of_filename name = Raise e -> e = IndexError.
Proof.
  unfold q_num_of_filename, list_last, list_first.
  destruct (last (split "_" name)); [|now intros [= <-]].
  destruct (split "." s); [now intros [= <-]|].
  intros H. now apply str_last_raise in H.
Qed.

(** X17. When no q_num can be cut from the file name (what follows the
    last underscore, or the whole name when it has none, is empty or
    starts with a dot), the submission raises [IndexError] whatever the
    transcoding and the inference would have answered, and writes
    nothing. *)
Theorem upload_test_no_q_num env file user db qd e :
  fst (get_question_handler env db) = Ok qd ->
  q_num_of_filename (filename file) = Raise e ->
  upload_test env file user db = (Raise IndexError, db).
Proof.
  intros Hq Hn.
  unfold get_question_handler, get_questions_by_date, bind, ret, raise in Hq.
  destruct (List.find (question_where (today env)) (questions db)) as [q|] eqn:E;
    cbn in Hq; [|discriminate].
  unfold upload_test, get_question_handler, get_questions_by_date, bind, lift, ret, raise.
  rewrite E, Hn. now rewrite (q_num_of_filename_raise _ _ Hn).
Qed.

Lemma upload_test_no_q_num_witness :
  upload_test ex_env_no_audio (ex_file "") ex_user ex_db = (Raise IndexError, ex_db).
Proof.
  apply (upload_test_no_q_num ex_env_no_audio (ex_file "") ex_user ex_db ex_question
           IndexError); reflexivity.
Defined.
